(** * StorageManager: the client-side storage facade of altogic-js

    A shallow embedding of [src/StorageManager.ts].  The class validates
    its arguments, assembles a request body and hands it to
    [this.fetcher.post]; whatever the fetcher resolves to is handed back.

    - JavaScript values are an inductive type with [typeof] and the
      truthiness test that [if (x)] performs;
    - a method body is a tree of effects (return, throw, a [post] on the
      fetcher, [new BucketManager]) that [run] executes against an
      arbitrary remote service, recording every request that leaves;
    - an [async] method never throws at the call site: the outcome of its
      body settles the promise it returns. *)

From Stdlib Require Import ZArith List String Bool Lia.
From Stdlib Require Import Floats.SpecFloat.
Import ListNotations.
Local Open Scope string_scope.

(** ** JavaScript values *)

Module Js.

Set Warnings "-register-all".

(** A runtime value.  Numbers are IEEE 754 doubles, kept in the Standard
    Library's specification format; TypeScript annotations are erased at
    run time, so every parameter can receive any of these. *)
Inductive value : Type :=
| Undefined
| Null
| Boolean (b : bool)
| Number (x : spec_float)
| BigInt (z : Z)
| Str (s : string)
| Symbol (description : string)
| Function (name : string)
| Array (items : list value)
| Object (props : list (string * value)).

(** [typeof v] *)
Definition typeof (v : value) : string :=
  match v with
  | Undefined => "undefined"
  | Null => "object"
  | Boolean _ => "boolean"
  | Number _ => "number"
  | BigInt _ => "bigint"
  | Str _ => "string"
  | Symbol _ => "symbol"
  | Function _ => "function"
  | Array _ => "object"
  | Object _ => "object"
  end.

(** ToBoolean, the test behind [if (v)]: the falsy values are [undefined],
    [null], [false], [+0], [-0], [NaN], [0n] and the empty string. *)
Definition toBoolean (v : value) : bool :=
  match v with
  | Undefined | Null => false
  | Boolean b => b
  | Number (S754_zero _) | Number S754_nan => false
  | Number _ => true
  | BigInt z => negb (z =? 0)%Z
  | Str s => negb (s =? "")
  | Symbol _ | Function _ | Array _ | Object _ => true
  end.

(** A value that is an object in the sense of the facade's checks: it
    passes [if (v)] and its [typeof] is ["object"]. *)
Definition is_object (v : value) : bool :=
  match v with
  | Array _ | Object _ => true
  | _ => false
  end.

(** An integer literal such as [42] or [0]. *)
Definition int (z : Z) : value :=
  match z with
  | Z0 => Number (S754_zero false)
  | Zpos m => Number (S754_finite false m 0)
  | Zneg m => Number (S754_finite true m 0)
  end.

Definition NaN : value := Number S754_nan.

(** A default parameter initialiser [p = d]: used when the argument is
    [undefined], whether omitted or passed explicitly. *)
Definition default (arg d : value) : value :=
  match arg with
  | Undefined => d
  | _ => arg
  end.

End Js.

Import Js.

(** ** Local errors *)

(** What the facade throws on its own.  [ClientError code message] is
    [new ClientError(code, message)] as written in the source; the class
    itself lives in ./utils/ClientError.  [InvalidArgument] is the class
    the spec gives to the error for a missing required parameter, which
    only [checkRequired] raises. *)
Inductive LocalError : Type :=
| ClientError (code message : string)
| InvalidArgument (fieldName : string).

(** How a plain (not [async]) call ends: it returns or it throws. *)
Inductive Completion (A : Type) : Type :=
| Normal (a : A)
| Thrown (e : LocalError).

Arguments Normal {A} a.
Arguments Thrown {A} e.

(** How the promise of an [async] call settles. *)
Inductive Promise (A : Type) : Type :=
| Fulfilled (a : A)
| Rejected (e : LocalError).

Arguments Fulfilled {A} a.
Arguments Rejected {A} e.

(** ./utils/helpers, of which the facade imports [checkRequired]: a plain
    function of a field name and a value, that returns or throws.  The
    facade is written against the interface; what the function rejects is
    fixed by an instance. *)
Class Helpers : Type := {
  helpers_checkRequired : string -> value -> Completion unit
}.

(** ** Effects of a method body *)

Section Facade.

(** The injected HTTP client.  Its class is an external collaborator; the
    facade only keeps the reference and calls [post] on it. *)
Context {Fetcher : Type}.

(** A reference to an object allocated by [new]. *)
Definition Ref := nat.

(** A method body: it returns, throws, or goes on after a [post] on a
    fetcher with the value the post resolved to, or after a
    [new BucketManager(nameOrId, f)] with the reference to the new
    object. *)
Inductive Prog (A : Type) : Type :=
| Ret (a : A)
| Throw (e : LocalError)
| Post (f : Fetcher) (path : string) (body : option value)
       (k : value -> Prog A)
| NewBucketManager (nameOrId : value) (f : Fetcher) (k : Ref -> Prog A).

Arguments Ret {A} a.
Arguments Throw {A} e.
Arguments Post {A} f path body k.
Arguments NewBucketManager {A} nameOrId f k.

Fixpoint bind {A B : Type} (p : Prog A) (h : A -> Prog B) : Prog B :=
  match p with
  | Ret a => h a
  | Throw e => Throw e
  | Post f path body k => Post f path body (fun v => bind (k v) h)
  | NewBucketManager n f k => NewBucketManager n f (fun r => bind (k r) h)
  end.

(** A call of a plain helper function inside a method body. *)
Definition lift {A : Type} (c : Completion A) : Prog A :=
  match c with
  | Normal a => Ret a
  | Thrown e => Throw e
  end.

(** [await f.post(path, body)]; [body = None] is a call with the path
    alone.  The fetcher's promise is taken to fulfil, as its declared type
    [Promise<{data, errors}>] has it: remote failures come back inside the
    envelope. *)
Definition post (f : Fetcher) (path : string) (body : option value)
  : Prog value :=
  Post f path body Ret.

(** [new BucketManager(nameOrId, f)] *)
Definition new_BucketManager (nameOrId : value) (f : Fetcher) : Prog Ref :=
  NewBucketManager nameOrId f Ret.

(** An [async] function: calling it runs the body and settles the promise
    it returns with the body's outcome. *)
Record Async (A : Type) : Type := async { body_of : Prog A }.
Arguments async {A} _.
Arguments body_of {A} _.

End Facade.

Arguments Prog : clear implicits.
Arguments Async : clear implicits.
Arguments Ret {Fetcher A} a.
Arguments Throw {Fetcher A} e.
Arguments Post {Fetcher A} f path body k.
Arguments NewBucketManager {Fetcher A} nameOrId f k.
Arguments async {Fetcher A} _.
Arguments body_of {Fetcher A} _.
Arguments lift {Fetcher A} c.

Declare Scope prog_scope.
Notation "x <- p ;; q" := (bind p (fun x => q))
  (at level 61, p at next level, right associativity) : prog_scope.
Notation "' pat <- p ;; q" := (bind p (fun x => match x with pat => q end))
  (at level 61, pat pattern, p at next level, right associativity)
  : prog_scope.
Notation "p ;; q" := (bind p (fun _ => q))
  (at level 61, right associativity) : prog_scope.

Local Open Scope prog_scope.

(** ** The facade *)

Section StorageManager.

Context {Fetcher : Type}.

(** [APIBase] keeps the fetcher handed to the constructor in
    [this.fetcher]. *)
Record StorageManager : Type := new_StorageManager { fetcher : Fetcher }.

(** [import { checkRequired } from './utils/helpers'] *)
Context {helpers : Helpers}.

Definition checkRequired (fieldName : string) (fieldValue : value)
  : Prog Fetcher unit :=
  lift (helpers_checkRequired fieldName fieldValue).

(** [bucket(nameOrId)] *)
Definition bucket (this : StorageManager) (nameOrId : value)
  : Prog Fetcher Ref :=
  checkRequired "bucket name or id" nameOrId ;;
  new_BucketManager nameOrId (fetcher this).

(** [async createBucket(name, isPublic = true)] *)
Definition createBucket (this : StorageManager) (name isPublic : value)
  : Async Fetcher value :=
  async (
    let isPublic := default isPublic (Boolean true) in
    checkRequired "Bucket name" name ;;
    r <- post (fetcher this) "/_api/rest/v1/storage/create-bucket"
           (Some (Object [("name", name); ("isPublic", isPublic)])) ;;
    Ret r).

(** [async listBuckets(expression?, options?)].  The two locals [expVal]
    and [optionsVal] are threaded through the two guarded checks. *)
Definition listBuckets (this : StorageManager) (expression options : value)
  : Async Fetcher value :=
  async (
    let expVal := Null in
    let optionsVal := Null in
    '(expVal, optionsVal) <-
      (if toBoolean expression then
         if typeof expression =? "string" then Ret (expression, optionsVal)
         else if typeof expression =? "object" then Ret (expVal, expression)
         else Throw (ClientError "invalid_value"
                       "Bucket listing expression needs to be a string")
       else Ret (expVal, optionsVal)) ;;
    optionsVal <-
      (if toBoolean options then
         if typeof options =? "object" then Ret options
         else Throw (ClientError "invalid_value"
                       "Bucket listing options need to be an object")
       else Ret optionsVal) ;;
    r <- post (fetcher this) "/_api/rest/v1/storage/list-buckets"
           (Some (Object [("expression", expVal);
                          ("options", optionsVal)])) ;;
    Ret r).

(** [get root()] *)
Definition root (this : StorageManager) : Prog Fetcher Ref :=
  new_BucketManager (Str "root") (fetcher this).

(** [async getStats()] *)
Definition getStats (this : StorageManager) : Async Fetcher value :=
  async (
    r <- post (fetcher this) "/_api/rest/v1/storage/stats" None ;;
    Ret r).

(** [async searchFiles(expression, options?)] *)
Definition searchFiles (this : StorageManager) (expression options : value)
  : Async Fetcher value :=
  async (
    let optionsVal := Null in
    checkRequired "search expression" expression ;;
    optionsVal <-
      (if toBoolean options then
         if typeof options =? "object" then Ret options
         else Throw (ClientError "invalid_value"
                       "File search options need to be an object")
       else Ret optionsVal) ;;
    r <- post (fetcher this) "/_api/rest/v1/storage/search-files"
           (Some (Object [("expression", expression);
                          ("options", optionsVal)])) ;;
    Ret r).

(** A call of one of the four request methods. *)
Inductive Invocation : Type :=
| CreateBucket (name isPublic : value)
| ListBuckets (expression options : value)
| GetStats
| SearchFiles (expression options : value).

Definition invoke (this : StorageManager) (i : Invocation)
  : Async Fetcher value :=
  match i with
  | CreateBucket name isPublic => createBucket this name isPublic
  | ListBuckets expression options => listBuckets this expression options
  | GetStats => getStats this
  | SearchFiles expression options => searchFiles this expression options
  end.

End StorageManager.

Arguments StorageManager : clear implicits.

(** Modelled from the spec: [checkRequired] of ./utils/helpers is imported
    by the source but is not part of it.  The spec has a required
    parameter fail with [InvalidArgument] when it is "empty/absent", before
    any I/O: absent is [undefined] or [null] (the spec writes an absent
    parameter as [null]), empty is the empty string. *)
Definition is_missing (fieldValue : value) : bool :=
  match fieldValue with
  | Undefined | Null => true
  | Str s => s =? ""
  | _ => false
  end.

(** Modelled from the spec: the error names the field and is of the
    [InvalidArgument] class. *)
Definition spec_checkRequired (fieldName : string) (fieldValue : value)
  : Completion unit :=
  if is_missing fieldValue then Thrown (InvalidArgument fieldName)
  else Normal tt.

(** Modelled from the spec: ./utils/helpers with the function above. *)
Definition spec_helpers : Helpers :=
  {| helpers_checkRequired := spec_checkRequired |}.

(** ** Running a method against a remote service *)

Section Run.

Context {Fetcher : Type}.

(** One call of [post] as it reaches the transport. *)
Record Request : Type := mkRequest {
  via : Fetcher;
  path : string;
  body : option value
}.

(** Modelled from the spec: the [BucketManager] class of ./BucketManager is
    not part of the source; it is "constructed with
    (bucketIdentifier, transport)" and the facade's part ends there. *)
Record BucketManager : Type := mkBucketManager {
  bucketNameOrId : value;
  bm_fetcher : Fetcher
}.

(** The remote service behind the fetchers: any state [T], any answer. *)
Variable T : Type.
Variable respond : Request -> T -> value * T.

Record World : Type := mkWorld {
  remote : T;
  sent : list Request;
  heap : list BucketManager
}.

(** The world once request [rq] has gone out and been answered. *)
Definition answer (rq : Request) (w : World) : value :=
  fst (respond rq (remote w)).

Definition after_post (rq : Request) (w : World) : World :=
  {| remote := snd (respond rq (remote w));
     sent := sent w ++ [rq];
     heap := heap w |}.

Definition after_new (b : BucketManager) (w : World) : World :=
  {| remote := remote w; sent := sent w; heap := heap w ++ [b] |}.

Fixpoint run {A : Type} (p : Prog Fetcher A) (w : World)
  : Completion A * World :=
  match p with
  | Ret a => (Normal a, w)
  | Throw e => (Thrown e, w)
  | Post f pth bdy k =>
      let rq := mkRequest f pth bdy in
      run (k (answer rq w)) (after_post rq w)
  | NewBucketManager n f k =>
      run (k (List.length (heap w))) (after_new (mkBucketManager n f) w)
  end.

(** A call of a plain method or getter: it returns or throws. *)
Definition call {A : Type} (m : Prog Fetcher A) (w : World)
  : Completion A * World :=
  run m w.

(** A call of an [async] method: it returns a promise, which the body's
    outcome settles. *)
Definition call_async {A : Type} (m : Async Fetcher A) (w : World)
  : Promise A * World :=
  match run (body_of m) w with
  | (Normal a, w') => (Fulfilled a, w')
  | (Thrown e, w') => (Rejected e, w')
  end.

(** The outcome of an [async] call whose only effect is that [rq] went out:
    the promise is fulfilled with the transport's answer. *)
Definition posted (rq : Request) (w : World) : Promise value * World :=
  (Fulfilled (answer rq w), after_post rq w).

(** Requests that went out during a call that took [w] to [w']. *)
Definition issued (w w' : World) : nat :=
  List.length (sent w') - List.length (sent w).

End Run.

Arguments Request : clear implicits.
Arguments BucketManager : clear implicits.
Arguments World : clear implicits.
Arguments via {Fetcher} r.
Arguments path {Fetcher} r.
Arguments body {Fetcher} r.
Arguments bucketNameOrId {Fetcher} b.
Arguments bm_fetcher {Fetcher} b.
Arguments remote {Fetcher T} w.
Arguments sent {Fetcher T} w.
Arguments heap {Fetcher T} w.
Arguments answer {Fetcher T} respond rq w.
Arguments after_post {Fetcher T} respond rq w.
Arguments after_new {Fetcher T} b w.
Arguments run {Fetcher T} respond {A} p w.
Arguments call {Fetcher T} respond {A} m w.
Arguments call_async {Fetcher T} respond {A} m w.
Arguments posted {Fetcher T} respond rq w.
Arguments issued {Fetcher T} w w'.

(** ** The requests of the four methods *)

Section Requests.

Context {Fetcher : Type}.

Definition create_bucket_request (this : StorageManager Fetcher)
  (name isPublic : value) : Request Fetcher :=
  mkRequest (fetcher this) "/_api/rest/v1/storage/create-bucket"
    (Some (Object [("name", name); ("isPublic", isPublic)])).

Definition list_buckets_request (this : StorageManager Fetcher)
  (expression options : value) : Request Fetcher :=
  mkRequest (fetcher this) "/_api/rest/v1/storage/list-buckets"
    (Some (Object [("expression", expression); ("options", options)])).

Definition stats_request (this : StorageManager Fetcher) : Request Fetcher :=
  mkRequest (fetcher this) "/_api/rest/v1/storage/stats" None.

Definition search_files_request (this : StorageManager Fetcher)
  (expression options : value) : Request Fetcher :=
  mkRequest (fetcher this) "/_api/rest/v1/storage/search-files"
    (Some (Object [("expression", expression); ("options", options)])).

End Requests.

(** ** A concrete deployment, for closed examples *)

Module Demo.

(** Fetchers are told apart by their base URL; the service counts the
    requests it has served and answers each with an empty success
    envelope carrying that count. *)
Definition Fetcher : Type := string.

Definition envelope (data errors : value) : value :=
  Object [("data", data); ("errors", errors)].

Definition respond (rq : Request Fetcher) (served : nat) : value * nat :=
  (envelope (Array [int (Z.of_nat served)]) Null, S served).

Definition storage : StorageManager Fetcher :=
  new_StorageManager "https://app.example".

Definition w0 : World Fetcher nat :=
  {| remote := 0; sent := []; heap := [] |}.

(** [{limit: 10}] *)
Definition limit10 : value := Object [("limit", int 10)].

End Demo.

(** ** What a call sent, and the conditions of the checks *)

Section Observations.

Context {Fetcher : Type} {T : Type}.

(** The requests that went out while the world went from [w] to [w']. *)
Definition sent_by (w w' : World Fetcher T) : list (Request Fetcher) :=
  skipn (List.length (sent w)) (sent w').

(** The condition under which [listBuckets] reaches its first [throw]
    (lines 94 to 101): the argument passes [if (expression)] and its
    [typeof] is neither ['string'] nor ['object']. *)
Definition wrong_expression (expression : value) : bool :=
  toBoolean expression
  && negb (typeof expression =? "string")
  && negb (typeof expression =? "object").

(** The condition under which [listBuckets] (lines 104 to 107) and
    [searchFiles] (lines 162 to 165) reach the [throw] of the options
    check. *)
Definition wrong_options (options : value) : bool :=
  toBoolean options && negb (typeof options =? "object").

(** The path literal in the body of each request method. *)
Definition path_of (i : Invocation) : string :=
  match i with
  | CreateBucket _ _ => "/_api/rest/v1/storage/create-bucket"
  | ListBuckets _ _ => "/_api/rest/v1/storage/list-buckets"
  | GetStats => "/_api/rest/v1/storage/stats"
  | SearchFiles _ _ => "/_api/rest/v1/storage/search-files"
  end.

(** Whether two calls are calls of the same method. *)
Definition same_method (i j : Invocation) : bool :=
  match i, j with
  | CreateBucket _ _, CreateBucket _ _ => true
  | ListBuckets _ _, ListBuckets _ _ => true
  | GetStats, GetStats => true
  | SearchFiles _ _, SearchFiles _ _ => true
  | _, _ => false
  end.

End Observations.

(** ** Properties of [listBuckets] and [getStats] *)

(** Case analysis on a value, down to what [toBoolean] looks at. *)
Ltac split_value v :=
  destruct v as
    [ | | [|] | [ ? | ? | | ? ? ? ] | [ | ? | ? ] | [ | ? ? ] | ? | ? | ? | ? ].

Ltac absurd_case :=
  simpl in *; solve [ discriminate | congruence | tauto ].

Section ListBuckets.

Context {Fetcher : Type} {T : Type}.
Variable respond : Request Fetcher -> T -> value * T.
Implicit Types (this : StorageManager Fetcher) (w : World Fetcher T).

Lemma issued_after_post (rq : Request Fetcher) w :
  issued w (after_post respond rq w) = 1.
Proof.
  unfold issued, after_post. simpl. rewrite List.length_app. simpl. lia.
Qed.

Lemma issued_same w : issued w w = 0.
Proof. unfold issued. lia. Qed.

Lemma toBoolean_Str (s : string) : s <> "" -> toBoolean (Str s) = true.
Proof.
  destruct s as [|c s]; [intros H; now elim H | reflexivity].
Qed.

Lemma is_object_typeof (v : value) :
  is_object v = true <-> toBoolean v = true /\ typeof v = "object".
Proof.
  split.
  - destruct v; simpl; intros H; try discriminate H; now split.
  - intros [Hb Ht]. destruct v; simpl in *; try discriminate; reflexivity.
Qed.

(** C1 (as amended): with a non-empty string [e] as first argument and no
    options, [listBuckets] posts [{expression: e, options: null}] to
    /_api/rest/v1/storage/list-buckets; with an object [o] as first
    argument and nothing else it posts [{expression: null, options: o}];
    with no argument at all both fields are [null].  In each case that
    request is the only effect and the promise is fulfilled with the
    transport's answer. *)
Theorem listBuckets_body this w :
  (forall e : string, e <> "" ->
     call_async respond (listBuckets this (Str e) Undefined) w
     = posted respond (list_buckets_request this (Str e) Null) w)
  /\ (forall o : value, is_object o = true ->
        call_async respond (listBuckets this o Undefined) w
        = posted respond (list_buckets_request this Null o) w)
  /\ call_async respond (listBuckets this Undefined Undefined) w
     = posted respond (list_buckets_request this Null Null) w.
Proof.
  split; [|split].
  - intros e He. unfold call_async, listBuckets.
    rewrite (toBoolean_Str e He). reflexivity.
  - intros o Ho. destruct o; try discriminate Ho; reflexivity.
  - reflexivity.
Qed.

(** C2 (as amended): a truthy first argument that is neither a string nor
    an object, or a truthy options argument that is not an object, makes
    [listBuckets] reject the promise it returns with a [ClientError] of
    code [invalid_value]; nothing is sent and the world is as before. *)
Theorem listBuckets_invalid_value this (expression options : value) w :
  (toBoolean expression = true /\ typeof expression <> "string"
   /\ typeof expression <> "object")
  \/ (toBoolean options = true /\ typeof options <> "object") ->
  exists message : string,
    call_async respond (listBuckets this expression options) w
    = (Rejected (ClientError "invalid_value" message), w).
Proof.
  intros [(Hb & Hs & Ho) | (Hb & Ho)].
  - split_value expression; try absurd_case;
      eexists; reflexivity.
  - split_value options; try absurd_case;
      split_value expression; eexists; reflexivity.
Qed.

(** C8: [getStats] takes no argument and checks nothing: every call posts
    once to /_api/rest/v1/storage/stats, without a body, and the promise
    is fulfilled with the answer. *)
Theorem getStats_posts_once this w :
  call_async respond (getStats this) w
  = posted respond
      (mkRequest (fetcher this) "/_api/rest/v1/storage/stats" None) w
  /\ issued w (snd (call_async respond (getStats this) w)) = 1.
Proof.
  split; [reflexivity|]. apply issued_after_post.
Qed.

(** C9: a falsy first argument is never inspected: the call behaves as if
    the argument had been left out, whatever the options.  With falsy
    options too, no error is raised and [{expression: null, options: null}]
    is posted.  The values [0], [-0], [false], [NaN], the empty string,
    [null] and [undefined] are all falsy. *)
Theorem listBuckets_falsy_skipped this (expression options : value) w :
  toBoolean expression = false ->
  call_async respond (listBuckets this expression options) w
  = call_async respond (listBuckets this Undefined options) w
  /\ (toBoolean options = false ->
      call_async respond (listBuckets this expression options) w
      = posted respond (list_buckets_request this Null Null) w)
  /\ Forall (fun v => toBoolean v = false)
       [int 0; Number (S754_zero true); Boolean false; NaN; Str "";
        Null; Undefined].
Proof.
  intros He. split; [|split].
  - unfold call_async, listBuckets. rewrite He. reflexivity.
  - intros Ho. unfold call_async, listBuckets. rewrite He, Ho. reflexivity.
  - repeat constructor.
Qed.

(** C10: when both arguments are objects, the first is stored as options
    and then overwritten by the second: [{expression: null, options: o2}]
    is posted, [o1] is dropped and no error is raised. *)
Theorem listBuckets_two_objects this (o1 o2 : value) w :
  is_object o1 = true -> is_object o2 = true ->
  call_async respond (listBuckets this o1 o2) w
  = posted respond (list_buckets_request this Null o2) w.
Proof.
  intros H1 H2.
  destruct o1; try discriminate H1; destruct o2; try discriminate H2;
    reflexivity.
Qed.

End ListBuckets.

(** ** Properties of every request method, whatever [checkRequired] rejects *)

Section Passthrough.

Context {Fetcher : Type} {T : Type} {helpers : Helpers}.
Variable respond : Request Fetcher -> T -> value * T.
Implicit Types (this : StorageManager Fetcher) (w : World Fetcher T).

(** Every call either rejects without touching the world, or is one
    request answered by the transport and handed back. *)
Lemma invoke_cases this (i : Invocation) w :
  (exists e, call_async respond (invoke this i) w = (Rejected e, w))
  \/ (exists rq, call_async respond (invoke this i) w = posted respond rq w).
Proof.
  destruct i as [name isPublic | expression options | | expression options];
    unfold call_async, invoke.
  - unfold createBucket, checkRequired. simpl.
    destruct (helpers_checkRequired "Bucket name" name) as [[]|e].
    + right. eexists. reflexivity.
    + left. eexists. reflexivity.
  - split_value expression; split_value options;
      first [ left; eexists; reflexivity | right; eexists; reflexivity ].
  - right. eexists. reflexivity.
  - unfold searchFiles, checkRequired. simpl.
    destruct (helpers_checkRequired "search expression" expression)
      as [[]|e].
    + split_value options;
        first [ left; eexists; reflexivity | right; eexists; reflexivity ].
    + left. eexists. reflexivity.
Qed.

(** C5: every envelope the transport returns is handed back as it is.
    If a call of [createBucket], [listBuckets], [getStats] or
    [searchFiles] has sent a request [rq] and the transport answered it
    with [env], then the promise of the call is fulfilled with [env]
    itself, and that request is all the call did.  Conversely a call is
    fulfilled only with the transport's answer to the request it sent: the
    method's result equals the transport's result. *)
Theorem envelope_passthrough this (i : Invocation) w :
  (forall (rq : Request Fetcher) (env : value),
     In rq (sent_by w (snd (call_async respond (invoke this i) w))) ->
     answer respond rq w = env ->
     call_async respond (invoke this i) w
     = (Fulfilled env, after_post respond rq w))
  /\ (forall (env : value) (w' : World Fetcher T),
        call_async respond (invoke this i) w = (Fulfilled env, w') ->
        exists rq : Request Fetcher,
          In rq (sent_by w w')
          /\ env = answer respond rq w /\ w' = after_post respond rq w).
Proof.
  assert (Hnone : sent_by w w = []).
  { unfold sent_by. apply skipn_all. }
  assert (Hone : forall rq : Request Fetcher,
             sent_by w (after_post respond rq w) = [rq]).
  { intros rq. unfold sent_by, after_post. simpl.
    rewrite skipn_app, skipn_all, Nat.sub_diag. reflexivity. }
  destruct (invoke_cases this i w) as [[e He] | [rq0 Hrq]]; split.
  - intros rq env H _. rewrite He in H. simpl in H. rewrite Hnone in H.
    contradiction.
  - intros env w' H. rewrite He in H. discriminate H.
  - intros rq env H Henv. rewrite Hrq in *. unfold posted in *.
    simpl in H. rewrite Hone in H. destruct H as [<- | []].
    rewrite Henv. reflexivity.
  - intros env w' H. rewrite Hrq in H. unfold posted in H.
    inversion H; subst. exists rq0. rewrite Hone.
    split; [left; reflexivity | split; reflexivity].
Qed.

(** C6: a call of [createBucket], [listBuckets], [getStats] or
    [searchFiles] that ends without a local error has sent exactly one
    request; one that ends with a local error has sent none and left the
    world as it was. *)
Theorem one_request_or_none this (i : Invocation) w :
  match call_async respond (invoke this i) w with
  | (Fulfilled _, w') =>
      issued w w' = 1 /\ exists rq, sent w' = (sent w ++ [rq])%list
  | (Rejected _, w') => issued w w' = 0 /\ w' = w
  end.
Proof.
  destruct (invoke_cases this i w) as [[e He] | [rq Hrq]].
  - rewrite He. split; [apply issued_same | reflexivity].
  - rewrite Hrq. unfold posted. split.
    + apply issued_after_post.
    + exists rq. reflexivity.
Qed.

End Passthrough.

(** ** Properties that rest on what [checkRequired] rejects *)

Section Required.

Context {Fetcher : Type} {T : Type}.
Variable respond : Request Fetcher -> T -> value * T.
Implicit Types (this : StorageManager Fetcher) (w : World Fetcher T).

#[local] Existing Instance spec_helpers.

Lemma is_missing_iff (v : value) :
  is_missing v = true <-> v = Undefined \/ v = Null \/ v = Str "".
Proof.
  split.
  - destruct v as [ | | | | | [|c s] | | | | ]; simpl; intros H;
      try discriminate H; tauto.
  - intros [-> | [-> | ->]]; reflexivity.
Qed.

Lemma is_missing_Str (s : string) : s <> "" -> is_missing (Str s) = false.
Proof.
  destruct s as [|c s]; [intros H; now elim H | reflexivity].
Qed.

(** C3 (as amended): with the expression absent ([undefined] or [null])
    or empty, [searchFiles] rejects its promise with an
    [InvalidArgument] error and sends nothing.  With an expression that
    passes, it posts [{expression, options}] to
    /_api/rest/v1/storage/search-files, where options is [null] when the
    argument is falsy and the argument itself when it is an object; a
    truthy options argument that is not an object rejects the promise
    with an [invalid_value] error and sends nothing. *)
Theorem searchFiles_checked this (expression options : value) w :
  (expression = Undefined \/ expression = Null \/ expression = Str "" ->
     call_async respond (searchFiles this expression options) w
     = (Rejected (InvalidArgument "search expression"), w))
  /\ (is_missing expression = false ->
        (toBoolean options = false ->
           call_async respond (searchFiles this expression options) w
           = posted respond (search_files_request this expression Null) w)
        /\ (is_object options = true ->
              call_async respond (searchFiles this expression options) w
              = posted respond
                  (search_files_request this expression options) w)
        /\ (toBoolean options = true -> typeof options <> "object" ->
              call_async respond (searchFiles this expression options) w
              = (Rejected
                   (ClientError "invalid_value"
                      "File search options need to be an object"), w))).
Proof.
  unfold call_async, searchFiles, checkRequired. simpl.
  unfold spec_checkRequired. split.
  - intros H. apply is_missing_iff in H. rewrite H. reflexivity.
  - intros ->. simpl. split; [|split].
    + intros ->. reflexivity.
    + intros Ho. destruct options; try discriminate Ho; reflexivity.
    + intros Hb Ho. split_value options; try absurd_case; reflexivity.
Qed.

(** C4: with the name absent ([undefined] or [null]) or empty,
    [createBucket] ends in an [InvalidArgument] error and sends nothing.
    With a non-empty name it sends exactly one request, to
    /_api/rest/v1/storage/create-bucket with body [{name, isPublic}],
    where [isPublic] is [true] when the argument is left out; so
    [createBucket("logs", false)] sends [{name: "logs", isPublic: false}]. *)
Theorem createBucket_checked this w :
  (forall name isPublic : value,
     name = Undefined \/ name = Null \/ name = Str "" ->
     call_async respond (createBucket this name isPublic) w
     = (Rejected (InvalidArgument "Bucket name"), w))
  /\ (forall (s : string) (isPublic : value),
        s <> "" -> isPublic <> Undefined ->
        call_async respond (createBucket this (Str s) isPublic) w
        = posted respond (create_bucket_request this (Str s) isPublic) w)
  /\ (forall s : string,
        s <> "" ->
        call_async respond (createBucket this (Str s) Undefined) w
        = posted respond
            (create_bucket_request this (Str s) (Boolean true)) w)
  /\ (forall rq : Request Fetcher,
        issued w (snd (posted respond rq w)) = 1)
  /\ call_async respond (createBucket this (Str "logs") (Boolean false)) w
     = posted respond
         (create_bucket_request this (Str "logs") (Boolean false)) w.
Proof.
  unfold call_async, createBucket, checkRequired. simpl.
  unfold spec_checkRequired. repeat split.
  - intros name isPublic H. apply is_missing_iff in H. rewrite H.
    reflexivity.
  - intros s isPublic Hs Hp. rewrite (is_missing_Str s Hs).
    destruct isPublic; try reflexivity. now elim Hp.
  - intros s Hs. rewrite (is_missing_Str s Hs). reflexivity.
  - intros rq. apply issued_after_post.
Qed.

(** C7: with the identifier absent ([undefined] or [null]) or empty,
    [bucket] throws an [InvalidArgument] error and nothing else happens.
    With a non-empty identifier it returns a reference to a freshly
    constructed handle holding exactly that identifier and the facade's
    fetcher; [root] does the same with the identifier ["root"], in any
    world and without any check.  Neither sends a request. *)
Theorem bucket_and_root this w :
  (forall nameOrId : value,
     nameOrId = Undefined \/ nameOrId = Null \/ nameOrId = Str "" ->
     call respond (bucket this nameOrId) w
     = (Thrown (InvalidArgument "bucket name or id"), w))
  /\ (forall s : string,
        s <> "" ->
        let b := mkBucketManager (Str s) (fetcher this) in
        call respond (bucket this (Str s)) w
        = (Normal (List.length (heap w)), after_new b w)
        /\ nth_error (heap w) (List.length (heap w)) = None
        /\ nth_error (heap (after_new b w)) (List.length (heap w)) = Some b
        /\ sent (after_new b w) = sent w)
  /\ (let b := mkBucketManager (Str "root") (fetcher this) in
      call respond (root this) w
      = (Normal (List.length (heap w)), after_new b w)
      /\ nth_error (heap (after_new b w)) (List.length (heap w)) = Some b
      /\ sent (after_new b w) = sent w).
Proof.
  assert (Hnew : forall b : BucketManager Fetcher,
             nth_error (heap (after_new b w)) (List.length (heap w))
             = Some b).
  { intros b. simpl. rewrite nth_error_app2 by lia.
    rewrite Nat.sub_diag. reflexivity. }
  unfold call, bucket, root, checkRequired. simpl.
  unfold spec_checkRequired. split; [|split].
  - intros v H. apply is_missing_iff in H. rewrite H. reflexivity.
  - intros s Hs. rewrite (is_missing_Str s Hs). simpl.
    repeat split.
    + apply nth_error_None. lia.
    + apply Hnew.
  - simpl. repeat split. apply Hnew.
Qed.

End Required.

(** ** The theorems at work on the demo deployment *)

(** [listBuckets("status='active'")] *)
Lemma listBuckets_body_witness :
  "status='active'" <> ""
  /\ call_async Demo.respond
       (listBuckets Demo.storage (Str "status='active'") Undefined) Demo.w0
     = posted Demo.respond
         (list_buckets_request Demo.storage (Str "status='active'") Null)
         Demo.w0.
Proof.
  split; [discriminate|].
  apply (proj1 (listBuckets_body Demo.respond Demo.storage Demo.w0)).
  discriminate.
Defined.

(** [listBuckets(42)] *)
Lemma listBuckets_invalid_value_witness :
  exists message : string,
    call_async Demo.respond
      (listBuckets Demo.storage (int 42) Undefined) Demo.w0
    = (Rejected (ClientError "invalid_value" message), Demo.w0).
Proof.
  apply (listBuckets_invalid_value Demo.respond Demo.storage
           (int 42) Undefined Demo.w0).
  left. repeat split; simpl; discriminate.
Defined.

(** [listBuckets(0)] *)
Lemma listBuckets_falsy_skipped_witness :
  call_async Demo.respond (listBuckets Demo.storage (int 0) Undefined)
    Demo.w0
  = posted Demo.respond (list_buckets_request Demo.storage Null Null)
      Demo.w0.
Proof.
  apply (listBuckets_falsy_skipped Demo.respond Demo.storage
           (int 0) Undefined Demo.w0); reflexivity.
Defined.

(** [listBuckets({limit: 10}, {page: 2})] *)
Lemma listBuckets_two_objects_witness :
  call_async Demo.respond
    (listBuckets Demo.storage Demo.limit10 (Object [("page", int 2)]))
    Demo.w0
  = posted Demo.respond
      (list_buckets_request Demo.storage Null (Object [("page", int 2)]))
      Demo.w0.
Proof.
  apply (listBuckets_two_objects Demo.respond Demo.storage); reflexivity.
Defined.

(** [createBucket("logs", false)]: the answer of the service comes back
    as it is. *)
Lemma envelope_passthrough_witness :
  call_async Demo.respond
    (invoke (helpers := spec_helpers) Demo.storage
       (CreateBucket (Str "logs") (Boolean false))) Demo.w0
  = (Fulfilled (Demo.envelope (Array [int 0]) Null),
     after_post Demo.respond
       (create_bucket_request Demo.storage (Str "logs") (Boolean false))
       Demo.w0).
Proof.
  apply (proj1 (envelope_passthrough (helpers := spec_helpers) Demo.respond
                  Demo.storage (CreateBucket (Str "logs") (Boolean false))
                  Demo.w0)).
  - left. reflexivity.
  - reflexivity.
Defined.

(** [searchFiles("size > 100", 7)] *)
Lemma searchFiles_checked_witness :
  call_async Demo.respond
    (searchFiles (helpers := spec_helpers) Demo.storage
       (Str "size > 100") (int 7)) Demo.w0
  = (Rejected
       (ClientError "invalid_value"
          "File search options need to be an object"), Demo.w0).
Proof.
  apply (searchFiles_checked Demo.respond Demo.storage
           (Str "size > 100") (int 7) Demo.w0).
  - reflexivity.
  - reflexivity.
  - simpl. discriminate.
Defined.

(** [createBucket("")] *)
Lemma createBucket_checked_witness :
  call_async Demo.respond
    (createBucket (helpers := spec_helpers) Demo.storage (Str "") Undefined)
    Demo.w0
  = (Rejected (InvalidArgument "Bucket name"), Demo.w0).
Proof.
  apply (proj1 (createBucket_checked Demo.respond Demo.storage Demo.w0)).
  right. right. reflexivity.
Defined.

(** [bucket("avatars")] *)
Lemma bucket_and_root_witness :
  call Demo.respond
    (bucket (helpers := spec_helpers) Demo.storage (Str "avatars")) Demo.w0
  = (Normal 0,
     after_new (mkBucketManager (Str "avatars") (fetcher Demo.storage))
       Demo.w0).
Proof.
  apply (proj1 (proj2 (bucket_and_root Demo.respond Demo.storage Demo.w0))
           "avatars").
  discriminate.
Defined.

(** ** Where the stated claims part from the code *)

(** C1 as stated fails on the empty string: [listBuckets("")] does not
    post [{expression: "", options: null}] but
    [{expression: null, options: null}]. *)
Lemma listBuckets_body_counterexample :
  sent (snd (call_async Demo.respond
               (listBuckets Demo.storage (Str "") Undefined) Demo.w0))
  = [list_buckets_request Demo.storage Null Null]
  /\ ~ (forall e : string,
          sent (snd (call_async Demo.respond
                       (listBuckets Demo.storage (Str e) Undefined)
                       Demo.w0))
          = [list_buckets_request Demo.storage (Str e) Null]).
Proof.
  split; [reflexivity|].
  intros H. specialize (H ""). discriminate H.
Defined.

(** C2 as stated fails on falsy values: [listBuckets(0)] and
    [listBuckets(undefined, false)] are given a value that is neither a
    string nor an object, raise nothing and send their request. *)
Lemma listBuckets_invalid_value_counterexample :
  ~ (forall v : value,
       v <> Undefined -> typeof v <> "string" -> typeof v <> "object" ->
       exists e : LocalError,
         call_async Demo.respond (listBuckets Demo.storage v Undefined)
           Demo.w0
         = (Rejected e, Demo.w0))
  /\ ~ (forall o : value,
          o <> Undefined -> typeof o <> "object" ->
          exists e : LocalError,
            call_async Demo.respond (listBuckets Demo.storage Undefined o)
              Demo.w0
            = (Rejected e, Demo.w0)).
Proof.
  split; intros H.
  - destruct (H (int 0)) as [e He]; try discriminate.
  - destruct (H (Boolean false)) as [e He]; try discriminate.
Defined.

(** C3 as stated fails on falsy options: [searchFiles("size > 100", 0)]
    has options present and not an object, raises nothing and posts
    [{expression: "size > 100", options: null}]. *)
Lemma searchFiles_checked_counterexample :
  call_async Demo.respond
    (searchFiles (helpers := spec_helpers) Demo.storage
       (Str "size > 100") (int 0)) Demo.w0
  = posted Demo.respond
      (search_files_request Demo.storage (Str "size > 100") Null) Demo.w0
  /\ ~ (forall options : value,
          options <> Undefined -> typeof options <> "object" ->
          exists e : LocalError,
            call_async Demo.respond
              (searchFiles (helpers := spec_helpers) Demo.storage
                 (Str "size > 100") options) Demo.w0
            = (Rejected e, Demo.w0)).
Proof.
  split; [reflexivity|].
  intros H. destruct (H (int 0)) as [e He]; try discriminate.
Defined.

(** ** Further properties of [listBuckets] *)

Section ListBucketsMore.

Context {Fetcher : Type} {T : Type}.
Variable respond : Request Fetcher -> T -> value * T.
Implicit Types (this : StorageManager Fetcher) (w : World Fetcher T).

Lemma sent_by_same w : sent_by w w = [].
Proof. unfold sent_by. apply skipn_all. Qed.

Lemma sent_by_after_post (rq : Request Fetcher) w :
  sent_by w (after_post respond rq w) = [rq].
Proof.
  unfold sent_by, after_post. simpl.
  rewrite skipn_app, skipn_all, Nat.sub_diag. reflexivity.
Qed.

Lemma sent_by_posted (rq : Request Fetcher) w :
  sent_by w (snd (posted respond rq w)) = [rq].
Proof. apply sent_by_after_post. Qed.

(** X1: [listBuckets] rejects exactly when a check fails, and the failed
    check names the error.  A wrong first argument gives the expression
    message, whatever the options are; otherwise wrong options give the
    options message.  A rejected call leaves the world as it was. *)
Theorem listBuckets_rejects_iff this (expression options : value) w
    (e : LocalError) :
  (fst (call_async respond (listBuckets this expression options) w)
   = Rejected e
   <-> (wrong_expression expression = true
        /\ e = ClientError "invalid_value"
                 "Bucket listing expression needs to be a string")
       \/ (wrong_expression expression = false
           /\ wrong_options options = true
           /\ e = ClientError "invalid_value"
                    "Bucket listing options need to be an object"))
  /\ (fst (call_async respond (listBuckets this expression options) w)
      = Rejected e ->
      snd (call_async respond (listBuckets this expression options) w) = w).
Proof.
  split.
  - split.
    + split_value expression; split_value options; simpl; intros H;
        try discriminate H; inversion H; subst;
        first [ left; split; reflexivity
              | right; repeat split; reflexivity ].
    + intros [[H1 H2] | [H1 [H2 H3]]]; subst;
        split_value expression; try discriminate H1;
        try reflexivity;
        split_value options; try discriminate H2; reflexivity.
  - split_value expression; split_value options; simpl; intros H;
      try discriminate H; reflexivity.
Qed.

(** How a call of [listBuckets] can end. *)
Lemma listBuckets_outcome this (expression options : value) w :
  (exists e : LocalError,
     call_async respond (listBuckets this expression options) w
     = (Rejected e, w))
  \/ (exists expVal optionsVal : value,
        call_async respond (listBuckets this expression options) w
        = posted respond (list_buckets_request this expVal optionsVal) w
        /\ (expVal = Null
            \/ (expVal = expression
                /\ exists s : string, s <> "" /\ expression = Str s))
        /\ (optionsVal = Null
            \/ (is_object optionsVal = true
                /\ (optionsVal = options \/ optionsVal = expression)))).
Proof.
  split_value expression; split_value options;
    first
      [ left; eexists; reflexivity
      | right; do 2 eexists; split; [reflexivity|]; split;
        [ first [ left; reflexivity
                | right; split;
                  [ reflexivity
                  | eexists; split; [|reflexivity]; discriminate ] ]
        | first [ left; reflexivity
                | right; split;
                  [ reflexivity
                  | first [ left; reflexivity | right; reflexivity ] ] ] ] ].
Qed.

(** X2: whatever the arguments, a request that [listBuckets] sends carries
    [{expression, options}] where [expression] is [null] or the first
    argument, a non-empty string, and [options] is [null] or one of the
    two arguments, an object.  No other value reaches the transport. *)
Theorem listBuckets_sent_body_shape this (expression options : value) w
    (rq : Request Fetcher) :
  In rq (sent_by w
           (snd (call_async respond (listBuckets this expression options)
                   w))) ->
  exists expVal optionsVal : value,
    rq = list_buckets_request this expVal optionsVal
    /\ (expVal = Null
        \/ (expVal = expression
            /\ exists s : string, s <> "" /\ expression = Str s))
    /\ (optionsVal = Null
        \/ (is_object optionsVal = true
            /\ (optionsVal = options \/ optionsVal = expression))).
Proof.
  intros H.
  destruct (listBuckets_outcome this expression options w)
    as [[e He] | (expVal & optionsVal & Hp & Hshape)].
  - rewrite He in H. simpl in H. rewrite sent_by_same in H. contradiction.
  - rewrite Hp, sent_by_posted in H. destruct H as [<- | []].
    exists expVal, optionsVal. split; [reflexivity | exact Hshape].
Qed.

(** X3: the two-argument calls.  A non-empty string with an object sends
    both; an object followed by a falsy value keeps the object as options;
    a falsy value followed by an object sends the object as options. *)
Theorem listBuckets_two_arguments this w :
  (forall (e : string) (o : value),
     e <> "" -> is_object o = true ->
     call_async respond (listBuckets this (Str e) o) w
     = posted respond (list_buckets_request this (Str e) o) w)
  /\ (forall o v : value,
        is_object o = true -> toBoolean v = false ->
        call_async respond (listBuckets this o v) w
        = posted respond (list_buckets_request this Null o) w)
  /\ (forall v o : value,
        toBoolean v = false -> is_object o = true ->
        call_async respond (listBuckets this v o) w
        = posted respond (list_buckets_request this Null o) w).
Proof.
  split; [|split].
  - intros e o He Ho. unfold call_async, listBuckets.
    rewrite (toBoolean_Str e He).
    destruct o; try discriminate Ho; reflexivity.
  - intros o v Ho Hv. unfold call_async, listBuckets. rewrite Hv.
    destruct o; try discriminate Ho; reflexivity.
  - intros v o Hv Ho. unfold call_async, listBuckets. rewrite Hv.
    destruct o; try discriminate Ho; reflexivity.
Qed.

End ListBucketsMore.

(** ** Further properties of the request methods, whatever [checkRequired]
    rejects *)

Section RequestsMore.

Context {Fetcher : Type} {T : Type} {helpers : Helpers}.
Variable respond : Request Fetcher -> T -> value * T.
Implicit Types (this : StorageManager Fetcher) (w : World Fetcher T).

(** X4: the name check is the only thing that can make [createBucket]
    fail: the promise is rejected with [e] only if
    [checkRequired('Bucket name', name)] threw [e], and when it throws the
    call rejects with that very error and the world is unchanged.
    [isPublic] is never validated. *)
Theorem createBucket_rejects_iff this (name isPublic : value) w
    (e : LocalError) :
  (fst (call_async respond (createBucket this name isPublic) w) = Rejected e
   -> helpers_checkRequired "Bucket name" name = Thrown e)
  /\ (helpers_checkRequired "Bucket name" name = Thrown e ->
      call_async respond (createBucket this name isPublic) w
      = (Rejected e, w)).
Proof.
  unfold call_async, createBucket, checkRequired. simpl.
  destruct (helpers_checkRequired "Bucket name" name) as [[]|e0]; simpl;
    split; intros H; try discriminate H.
  - inversion H; reflexivity.
  - inversion H; reflexivity.
Qed.

(** X5: a request that [createBucket] sends carries [{name, isPublic}]
    with the name argument as it was given, and an [isPublic] that is
    never [undefined]: it is the argument, or [true] when the argument was
    [undefined].  It is sent only after the name check has passed. *)
Theorem createBucket_sent_body_shape this (name isPublic : value) w
    (rq : Request Fetcher) :
  In rq (sent_by w
           (snd (call_async respond (createBucket this name isPublic) w))) ->
  exists p : value,
    rq = create_bucket_request this name p
    /\ p <> Undefined
    /\ (p = isPublic \/ (isPublic = Undefined /\ p = Boolean true))
    /\ helpers_checkRequired "Bucket name" name = Normal tt.
Proof.
  unfold call_async, createBucket, checkRequired. simpl.
  destruct (helpers_checkRequired "Bucket name" name) as [[]|e0]; simpl.
  - rewrite sent_by_after_post. intros [<- | []].
    exists (default isPublic (Boolean true)).
    split; [reflexivity|].
    destruct isPublic; simpl; repeat split; try discriminate; tauto.
  - rewrite sent_by_same. contradiction.
Qed.

(** X6: [searchFiles] rejects exactly when [checkRequired] throws, with
    that error, or when [checkRequired] returns and the options are truthy
    and not an object, with the options message.  The expression check
    comes first: wrong options never hide a missing expression.  A
    rejected call leaves the world as it was. *)
Theorem searchFiles_rejects_iff this (expression options : value) w
    (e : LocalError) :
  (fst (call_async respond (searchFiles this expression options) w)
   = Rejected e
   <-> helpers_checkRequired "search expression" expression = Thrown e
       \/ (helpers_checkRequired "search expression" expression = Normal tt
           /\ wrong_options options = true
           /\ e = ClientError "invalid_value"
                    "File search options need to be an object"))
  /\ (fst (call_async respond (searchFiles this expression options) w)
      = Rejected e ->
      snd (call_async respond (searchFiles this expression options) w) = w).
Proof.
  unfold call_async, searchFiles, checkRequired. simpl.
  destruct (helpers_checkRequired "search expression" expression)
    as [[]|e0]; simpl.
  - split.
    + split.
      * split_value options; simpl; intros H; try discriminate H.
        all: inversion H; subst; right; repeat split; reflexivity.
      * intros [H | (_ & H & ->)]; [discriminate H|].
        split_value options; try discriminate H; reflexivity.
    + split_value options; simpl; intros H; try discriminate H;
        reflexivity.
  - split.
    + split.
      * intros H. inversion H; subst. left. reflexivity.
      * intros [H | (H & _)]; [inversion H; reflexivity | discriminate H].
    + reflexivity.
Qed.

(** X7: a request that [searchFiles] sends carries the expression argument
    as it was given, whatever its type (an object is not taken for the
    options, unlike in [listBuckets]), and options that are [null] or the
    options argument, an object. *)
Theorem searchFiles_sent_body_shape this (expression options : value) w
    (rq : Request Fetcher) :
  In rq (sent_by w
           (snd (call_async respond (searchFiles this expression options)
                   w))) ->
  exists optionsVal : value,
    rq = search_files_request this expression optionsVal
    /\ (optionsVal = Null
        \/ (optionsVal = options /\ is_object options = true))
    /\ helpers_checkRequired "search expression" expression = Normal tt.
Proof.
  unfold call_async, searchFiles, checkRequired. simpl.
  destruct (helpers_checkRequired "search expression" expression)
    as [[]|e0]; simpl.
  - split_value options; simpl;
      first [ rewrite sent_by_same; contradiction
            | rewrite sent_by_after_post; intros [<- | []];
              eexists; split; [reflexivity|]; split; [|reflexivity];
              first [ left; reflexivity | right; split; reflexivity ] ].
  - rewrite sent_by_same. contradiction.
Qed.

(** The outcome of a call does not depend on the world it starts in: it
    is the same local error, or the same request, everywhere. *)
Lemma invoke_uniform this (i : Invocation) :
  (exists e, forall w,
      call_async respond (invoke this i) w = (Rejected e, w))
  \/ (exists rq,
         (forall w, call_async respond (invoke this i) w
                    = posted respond rq w)
         /\ via rq = fetcher this /\ path rq = path_of i
         /\ (body rq = None <-> i = GetStats)).
Proof.
  assert (Hsome : forall (b : value) (j : Invocation),
             j <> GetStats -> (Some b = None <-> j = GetStats)).
  { intros b j Hj. split; [discriminate | intros ->; now elim Hj]. }
  destruct i as [name isPublic | expression options | | expression options];
    unfold call_async, invoke.
  - unfold createBucket, checkRequired. simpl.
    destruct (helpers_checkRequired "Bucket name" name) as [[]|e].
    + right. eexists. split; [intros w; reflexivity|].
      repeat split; try discriminate.
    + left. eexists. intros w. reflexivity.
  - split_value expression; split_value options;
      first [ left; eexists; intros w; reflexivity
            | right; eexists; split; [intros w; reflexivity|];
              repeat split; discriminate ].
  - right. eexists. split; [intros w; reflexivity|]. repeat split.
  - unfold searchFiles, checkRequired. simpl.
    destruct (helpers_checkRequired "search expression" expression)
      as [[]|e].
    + split_value options;
        first [ left; eexists; intros w; reflexivity
              | right; eexists; split; [intros w; reflexivity|];
                repeat split; discriminate ].
    + left. eexists. intros w. reflexivity.
Qed.

(** X8: every request of the four methods goes through the facade's own
    fetcher, to the path of the method that was called, whatever the
    arguments; only [getStats] sends no body.  The four paths differ, so
    the path tells the method. *)
Theorem request_routing this (i : Invocation) w :
  (forall rq : Request Fetcher,
     In rq (sent_by w (snd (call_async respond (invoke this i) w))) ->
     via rq = fetcher this
     /\ path rq = path_of i
     /\ (body rq = None <-> i = GetStats))
  /\ (forall j : Invocation, path_of i = path_of j -> same_method i j = true).
Proof.
  split.
  - intros rq H.
    destruct (invoke_uniform this i) as [[e He] | (rq0 & Hp & Hr)].
    + rewrite He in H. simpl in H. rewrite sent_by_same in H.
      contradiction.
    + rewrite Hp, sent_by_posted in H. destruct H as [<- | []]. exact Hr.
  - intros j. destruct i, j; simpl; intros H;
      first [ reflexivity | discriminate H ].
Qed.

(** X9: calls do not interfere.  After a first call, a second call sends
    what it would have sent alone, after what the first one sent, and it
    is rejected exactly when it would have been rejected alone: nothing is
    cached and nothing is retried. *)
Theorem calls_compose this (i j : Invocation) w :
  let w1 := snd (call_async respond (invoke this i) w) in
  sent_by w (snd (call_async respond (invoke this j) w1))
  = (sent_by w w1
     ++ sent_by w (snd (call_async respond (invoke this j) w)))%list
  /\ (forall e : LocalError,
        fst (call_async respond (invoke this j) w1) = Rejected e
        <-> fst (call_async respond (invoke this j) w) = Rejected e).
Proof.
  assert (Htwo : forall (a b : Request Fetcher) (v : World Fetcher T),
             sent_by v (after_post respond b (after_post respond a v))
             = [a; b]).
  { intros a b v. unfold sent_by, after_post. simpl.
    rewrite <- app_assoc, skipn_app, skipn_all, Nat.sub_diag.
    reflexivity. }
  destruct (invoke_uniform this i) as [[e1 H1] | (rq1 & H1 & _)];
    destruct (invoke_uniform this j) as [[e2 H2] | (rq2 & H2 & _)];
    cbv zeta; rewrite H1, !H2; unfold posted; simpl; split;
    try (intros e; split; intros H; first [exact H | discriminate H]).
  - rewrite sent_by_same. reflexivity.
  - rewrite sent_by_same, sent_by_after_post. reflexivity.
  - rewrite sent_by_after_post, sent_by_same. reflexivity.
  - rewrite Htwo, !sent_by_after_post. reflexivity.
Qed.

End RequestsMore.

(** ** Further properties of [bucket] and [root], whatever [checkRequired]
    rejects *)

Section HandlesMore.

Context {Fetcher : Type} {T : Type} {helpers : Helpers}.
Variable respond : Request Fetcher -> T -> value * T.
Implicit Types (this : StorageManager Fetcher) (w : World Fetcher T).

(** How a call of [bucket] can end. *)
Lemma bucket_outcome this (nameOrId : value) w :
  (exists e : LocalError,
     helpers_checkRequired "bucket name or id" nameOrId = Thrown e
     /\ call respond (bucket this nameOrId) w = (Thrown e, w))
  \/ (helpers_checkRequired "bucket name or id" nameOrId = Normal tt
      /\ call respond (bucket this nameOrId) w
         = (Normal (List.length (heap w)),
            after_new (mkBucketManager nameOrId (fetcher this)) w)).
Proof.
  unfold call, bucket, checkRequired. simpl.
  destruct (helpers_checkRequired "bucket name or id" nameOrId) as [[]|e].
  - right. split; reflexivity.
  - left. exists e. split; reflexivity.
Qed.

Lemma nth_error_after_new (b : BucketManager Fetcher) w :
  nth_error (heap (after_new b w)) (List.length (heap w)) = Some b.
Proof.
  simpl. rewrite nth_error_app2 by lia. rewrite Nat.sub_diag. reflexivity.
Qed.

Lemma nth_error_after_new_old (b b0 : BucketManager Fetcher) w (r : Ref) :
  nth_error (heap w) r = Some b0 ->
  nth_error (heap (after_new b w)) r = Some b0.
Proof.
  intros H. simpl. rewrite nth_error_app1; [exact H|].
  apply nth_error_Some. rewrite H. discriminate.
Qed.

(** X10: [bucket] throws [e] only if
    [checkRequired('bucket name or id', nameOrId)] threw [e]; when it
    throws, the call throws that very error, no handle is constructed and
    the world is unchanged. *)
Theorem bucket_throws_iff this (nameOrId : value) w (e : LocalError) :
  (fst (call respond (bucket this nameOrId) w) = Thrown e ->
   helpers_checkRequired "bucket name or id" nameOrId = Thrown e)
  /\ (helpers_checkRequired "bucket name or id" nameOrId = Thrown e ->
      call respond (bucket this nameOrId) w = (Thrown e, w)).
Proof.
  destruct (bucket_outcome this nameOrId w) as [(e0 & Hc & Hr) | (Hc & Hr)];
    rewrite Hr, Hc; simpl; split; intros H; try discriminate H.
  - inversion H; reflexivity.
  - inversion H; reflexivity.
Qed.

(** X11: [root] never throws, and where [checkRequired] lets the name
    ["root"] through, [root] does what [bucket('root')] does. *)
Theorem root_is_bucket_root this w :
  (exists (r : Ref) (w' : World Fetcher T),
     call respond (root this) w = (Normal r, w'))
  /\ (helpers_checkRequired "bucket name or id" (Str "root") = Normal tt ->
      call respond (root this) w = call respond (bucket this (Str "root")) w).
Proof.
  split.
  - do 2 eexists. reflexivity.
  - intros H. unfold call, bucket, root, checkRequired. rewrite H.
    reflexivity.
Qed.

(** X12: handles are never shared or reused.  Two successful calls of
    [bucket], one after the other, return two different references; after
    both, each reference leads to a handle with the identifier of its own
    call, as it was given, and the facade's fetcher.  Two reads of [root]
    likewise give two different handles on ["root"]. *)
Theorem handles_are_fresh this w :
  (forall (n1 n2 : value) (r1 r2 : Ref) (w1 w2 : World Fetcher T),
     call respond (bucket this n1) w = (Normal r1, w1) ->
     call respond (bucket this n2) w1 = (Normal r2, w2) ->
     r1 <> r2
     /\ nth_error (heap w2) r1 = Some (mkBucketManager n1 (fetcher this))
     /\ nth_error (heap w2) r2 = Some (mkBucketManager n2 (fetcher this)))
  /\ (exists (r1 r2 : Ref) (w1 w2 : World Fetcher T),
        call respond (root this) w = (Normal r1, w1)
        /\ call respond (root this) w1 = (Normal r2, w2)
        /\ r1 <> r2
        /\ nth_error (heap w2) r1
           = Some (mkBucketManager (Str "root") (fetcher this))
        /\ nth_error (heap w2) r2
           = Some (mkBucketManager (Str "root") (fetcher this))).
Proof.
  split.
  - intros n1 n2 r1 r2 w1 w2 H1 H2.
    destruct (bucket_outcome this n1 w) as [(e & _ & Hr) | (_ & Hr)];
      rewrite Hr in H1; inversion H1; subst; clear H1.
    destruct (bucket_outcome this n2
                (after_new (mkBucketManager n1 (fetcher this)) w))
      as [(e & _ & Hr2) | (_ & Hr2)];
      rewrite Hr2 in H2; inversion H2; subst; clear H2.
    split; [|split].
    + simpl. rewrite List.length_app. simpl. lia.
    + apply nth_error_after_new_old, nth_error_after_new.
    + apply nth_error_after_new.
  - do 4 eexists. split; [reflexivity|]. split; [reflexivity|].
    split; [|split].
    + simpl. rewrite List.length_app. simpl. lia.
    + apply nth_error_after_new_old, nth_error_after_new.
    + apply nth_error_after_new.
Qed.

(** X13: what each operation leaves alone.  The four request methods
    construct no handle; [bucket] and [root] send nothing, leave the
    remote service as it was, and keep every handle that existed. *)
Theorem facade_frame this w :
  (forall i : Invocation,
     heap (snd (call_async respond (invoke this i) w)) = heap w)
  /\ (forall nameOrId : value,
        let w' := snd (call respond (bucket this nameOrId) w) in
        sent w' = sent w /\ remote w' = remote w
        /\ forall (r : Ref) (b : BucketManager Fetcher),
             nth_error (heap w) r = Some b ->
             nth_error (heap w') r = Some b)
  /\ (let w' := snd (call respond (root this) w) in
      sent w' = sent w /\ remote w' = remote w
      /\ forall (r : Ref) (b : BucketManager Fetcher),
           nth_error (heap w) r = Some b -> nth_error (heap w') r = Some b).
Proof.
  split; [|split].
  - intros i.
    destruct (invoke_uniform respond this i) as [[e He] | (rq & Hp & _)].
    + rewrite He. reflexivity.
    + rewrite Hp. reflexivity.
  - intros nameOrId.
    destruct (bucket_outcome this nameOrId w) as [(e & _ & Hr) | (_ & Hr)];
      cbv zeta; rewrite Hr; simpl; repeat split.
    + intros r b H. exact H.
    + intros r b H.
      apply (nth_error_after_new_old
               (mkBucketManager nameOrId (fetcher this)) b w r H).
  - cbv zeta. repeat split. intros r b H.
    apply (nth_error_after_new_old
             (mkBucketManager (Str "root") (fetcher this)) b w r H).
Qed.

End HandlesMore.

(** ** The further theorems at work on the demo deployment *)

(** [listBuckets(42, 7)]: both arguments are wrong, the first one is
    reported. *)
Lemma listBuckets_rejects_iff_witness :
  fst (call_async Demo.respond (listBuckets Demo.storage (int 42) (int 7))
         Demo.w0)
  = Rejected (ClientError "invalid_value"
                "Bucket listing expression needs to be a string").
Proof.
  apply (proj1 (listBuckets_rejects_iff Demo.respond Demo.storage
                  (int 42) (int 7) Demo.w0 _)).
  left. split; reflexivity.
Defined.

(** [listBuckets({limit: 10})] *)
Lemma listBuckets_sent_body_shape_witness :
  exists expVal optionsVal : value,
    list_buckets_request Demo.storage Null Demo.limit10
    = list_buckets_request Demo.storage expVal optionsVal
    /\ (expVal = Null
        \/ (expVal = Demo.limit10
            /\ exists s : string, s <> "" /\ Demo.limit10 = Str s))
    /\ (optionsVal = Null
        \/ (is_object optionsVal = true
            /\ (optionsVal = Undefined \/ optionsVal = Demo.limit10))).
Proof.
  apply (listBuckets_sent_body_shape Demo.respond Demo.storage
           Demo.limit10 Undefined Demo.w0).
  left. reflexivity.
Defined.

(** [listBuckets("status='active'", {limit: 10})] *)
Lemma listBuckets_two_arguments_witness :
  call_async Demo.respond
    (listBuckets Demo.storage (Str "status='active'") Demo.limit10) Demo.w0
  = posted Demo.respond
      (list_buckets_request Demo.storage (Str "status='active'")
         Demo.limit10) Demo.w0.
Proof.
  apply (proj1 (listBuckets_two_arguments Demo.respond Demo.storage
                  Demo.w0)).
  - discriminate.
  - reflexivity.
Defined.

(** [createBucket(null, 5)] *)
Lemma createBucket_rejects_iff_witness :
  call_async Demo.respond
    (createBucket (helpers := spec_helpers) Demo.storage Null (int 5))
    Demo.w0
  = (Rejected (InvalidArgument "Bucket name"), Demo.w0).
Proof.
  apply (proj2 (createBucket_rejects_iff (helpers := spec_helpers)
                  Demo.respond Demo.storage Null (int 5) Demo.w0 _)).
  reflexivity.
Defined.

(** [createBucket("logs")] *)
Lemma createBucket_sent_body_shape_witness :
  exists p : value,
    create_bucket_request Demo.storage (Str "logs") (Boolean true)
    = create_bucket_request Demo.storage (Str "logs") p
    /\ p <> Undefined
    /\ (p = Undefined \/ (Undefined = Undefined /\ p = Boolean true))
    /\ spec_checkRequired "Bucket name" (Str "logs") = Normal tt.
Proof.
  apply (createBucket_sent_body_shape (helpers := spec_helpers)
           Demo.respond Demo.storage (Str "logs") Undefined Demo.w0).
  left. reflexivity.
Defined.

(** [searchFiles(undefined, 7)]: the missing expression is reported, not
    the wrong options. *)
Lemma searchFiles_rejects_iff_witness :
  fst (call_async Demo.respond
         (searchFiles (helpers := spec_helpers) Demo.storage Undefined
            (int 7)) Demo.w0)
  = Rejected (InvalidArgument "search expression").
Proof.
  apply (proj1 (searchFiles_rejects_iff (helpers := spec_helpers)
                  Demo.respond Demo.storage Undefined (int 7) Demo.w0 _)).
  left. reflexivity.
Defined.

(** [searchFiles({limit: 10})]: the object is sent as the expression. *)
Lemma searchFiles_sent_body_shape_witness :
  exists optionsVal : value,
    search_files_request Demo.storage Demo.limit10 Null
    = search_files_request Demo.storage Demo.limit10 optionsVal
    /\ (optionsVal = Null
        \/ (optionsVal = Undefined /\ is_object Undefined = true))
    /\ spec_checkRequired "search expression" Demo.limit10 = Normal tt.
Proof.
  apply (searchFiles_sent_body_shape (helpers := spec_helpers)
           Demo.respond Demo.storage Demo.limit10 Undefined Demo.w0).
  left. reflexivity.
Defined.

(** [searchFiles("size > 100")] *)
Lemma request_routing_witness :
  via (search_files_request Demo.storage (Str "size > 100") Null)
  = fetcher Demo.storage
  /\ path (search_files_request Demo.storage (Str "size > 100") Null)
     = "/_api/rest/v1/storage/search-files"
  /\ (body (search_files_request Demo.storage (Str "size > 100") Null)
      = None
      <-> SearchFiles (Str "size > 100") Undefined = GetStats).
Proof.
  apply (proj1 (request_routing (helpers := spec_helpers) Demo.respond
                  Demo.storage (SearchFiles (Str "size > 100") Undefined)
                  Demo.w0)).
  left. reflexivity.
Defined.

(** [createBucket("logs")], then [getStats()] *)
Lemma calls_compose_witness :
  sent_by Demo.w0
    (snd (call_async Demo.respond (getStats Demo.storage)
            (snd (call_async Demo.respond
                    (createBucket (helpers := spec_helpers) Demo.storage
                       (Str "logs") Undefined) Demo.w0))))
  = [create_bucket_request Demo.storage (Str "logs") (Boolean true);
     stats_request Demo.storage].
Proof.
  exact (proj1 (calls_compose (helpers := spec_helpers) Demo.respond
                  Demo.storage (CreateBucket (Str "logs") Undefined)
                  GetStats Demo.w0)).
Defined.

(** [bucket("")] *)
Lemma bucket_throws_iff_witness :
  call Demo.respond
    (bucket (helpers := spec_helpers) Demo.storage (Str "")) Demo.w0
  = (Thrown (InvalidArgument "bucket name or id"), Demo.w0).
Proof.
  apply (proj2 (bucket_throws_iff (helpers := spec_helpers) Demo.respond
                  Demo.storage (Str "") Demo.w0 _)).
  reflexivity.
Defined.

(** [root] and [bucket('root')] *)
Lemma root_is_bucket_root_witness :
  call Demo.respond (root Demo.storage) Demo.w0
  = call Demo.respond
      (bucket (helpers := spec_helpers) Demo.storage (Str "root")) Demo.w0.
Proof.
  apply (proj2 (root_is_bucket_root (helpers := spec_helpers) Demo.respond
                  Demo.storage Demo.w0)).
  reflexivity.
Defined.

(** [bucket("avatars")], then [bucket("avatars")] again *)
Lemma handles_are_fresh_witness :
  0 <> 1
  /\ nth_error
       [mkBucketManager (Str "avatars") (fetcher Demo.storage);
        mkBucketManager (Str "avatars") (fetcher Demo.storage)] 0
     = Some (mkBucketManager (Str "avatars") (fetcher Demo.storage))
  /\ nth_error
       [mkBucketManager (Str "avatars") (fetcher Demo.storage);
        mkBucketManager (Str "avatars") (fetcher Demo.storage)] 1
     = Some (mkBucketManager (Str "avatars") (fetcher Demo.storage)).
Proof.
  apply (proj1 (handles_are_fresh (helpers := spec_helpers) Demo.respond
                  Demo.storage Demo.w0)
           (Str "avatars") (Str "avatars") 0 1
           (after_new (mkBucketManager (Str "avatars")
                         (fetcher Demo.storage)) Demo.w0)
           (after_new (mkBucketManager (Str "avatars")
                         (fetcher Demo.storage))
              (after_new (mkBucketManager (Str "avatars")
                            (fetcher Demo.storage)) Demo.w0)));
    reflexivity.
Defined.

(** A handle made by [root] is still there after [bucket("avatars")]. *)
Lemma facade_frame_witness :
  nth_error
    (heap (snd (call Demo.respond
                  (bucket (helpers := spec_helpers) Demo.storage
                     (Str "avatars"))
                  (snd (call Demo.respond (root Demo.storage) Demo.w0)))))
    0
  = Some (mkBucketManager (Str "root") (fetcher Demo.storage)).
Proof.
  apply (proj2 (proj2 (proj1 (proj2
           (facade_frame (helpers := spec_helpers) Demo.respond Demo.storage
              (snd (call Demo.respond (root Demo.storage) Demo.w0))))
           (Str "avatars")))).
  reflexivity.
Defined.
